(** * annotated_types: constraint metadata and the comparison builders

    A shallow embedding of [annotated_types/__init__.py]: the single-bound
    metadata classes, [GroupedMetadata] with its subclass hook, [Interval],
    [Len], and the two builder singletons [X] and [len_X].

    Conventions of the embedding.
    - A Python method that may raise is a function into [result]; the
      exception is recorded by its class only (the f-string message is not
      modelled).
    - A generator ([__iter__]) is a computation in the [Gen] monad, which
      records the yielded items in order; [collect] is [list(iter(obj))].
    - Frozen dataclasses are records; [dataclasses.replace] is a record
      update that leaves the receiver untouched. *)

From Stdlib Require Import ZArith List String Bool Lia.
Import ListNotations.
Local Open Scope Z_scope.

(** ** Exceptions and results *)

Inductive exn : Type :=
| TypeError
| ValueError
| NotImplementedError
| AttributeError.

Inductive result (A : Type) : Type :=
| Ok (a : A)
| Raise (e : exn).

Arguments Ok {A} a.
Arguments Raise {A} e.

Definition bind {A B : Type} (c : result A) (k : A -> result B) : result B :=
  match c with
  | Ok a => k a
  | Raise e => Raise e
  end.

Declare Scope py_scope.
Delimit Scope py_scope with py.
Notation "x <- c ;; k" := (bind c (fun x => k))
  (at level 61, c at next level, right associativity) : py_scope.
Notation "c ;; k" := (bind c (fun _ => k))
  (at level 61, right associativity) : py_scope.
Local Open Scope py_scope.

Definition succeeds {A : Type} (c : result A) : bool :=
  match c with Ok _ => true | Raise _ => false end.

(** ** Length constraints as data

    [Len] declares [min_length: int = 0] and [max_length: Optional[int] = None];
    the record follows the declared field types. *)

Record Len : Type := mkLen {
  min_length : Z;
  max_length : option Z
}.

(** [Len(...)] with keyword defaults. *)
Definition Len_new (min : option Z) (max : option Z) : Len :=
  mkLen (match min with Some n => n | None => 0 end) max.

(** ** Python values that reach the comparison operators

    [bool] is a subclass of [int], so [VBool] passes [isinstance(_, int)] and
    behaves as 0 or 1 in arithmetic.  [VLenMagic] is the length builder
    object itself.  [VOther] stands for an instance of any
    class not listed (float, datetime, a user class, ...), kept opaque. *)

Inductive value : Type :=
| VNone
| VBool (b : bool)
| VInt (n : Z)
| VStr (s : string)
| VLen (l : Len)
| VLenMagic
| VOther (type_name : string) (ident : Z).

(** [x is None] / [x is not None]. *)
Definition is_None (v : value) : bool :=
  match v with VNone => true | _ => false end.

Definition is_not_None (v : value) : bool := negb (is_None v).

(** [isinstance(other, int)], returning the integer the object denotes. *)
Definition int_value (v : value) : option Z :=
  match v with
  | VInt n => Some n
  | VBool true => Some 1
  | VBool false => Some 0
  | _ => None
  end.

Definition isinstance_int (v : value) : bool :=
  match int_value v with Some _ => true | None => false end.

(** Use of [other] as an integer operand once it is known to be one. *)
Definition as_int (v : value) : result Z :=
  match int_value v with
  | Some n => Ok n
  | None => Raise TypeError
  end.

(** ** Single-bound metadata

    [Timezone] and [Predicate] are also [BaseMetadata] in the source; no
    grouped constraint ever yields them, so they carry no payload here. *)

Inductive BaseMetadata : Type :=
| Gt (gt : value)
| Ge (ge : value)
| Lt (lt : value)
| Le (le : value)
| MultipleOf (multiple_of : value)
| MinLen (min_length : Z)
| MaxLen (max_length : Z).

(** ** Generators *)

Definition Gen (A : Type) : Type := (A * list BaseMetadata)%type.

Definition gret {A : Type} (a : A) : Gen A := (a, []).

Definition gbind {A B : Type} (g : Gen A) (k : A -> Gen B) : Gen B :=
  let '(a, out1) := g in
  let '(b, out2) := k a in
  (b, out1 ++ out2).

Definition yield (m : BaseMetadata) : Gen unit := (tt, [m]).

(** [if c: body] with no else branch. *)
Definition when (c : bool) (body : Gen unit) : Gen unit :=
  if c then body else gret tt.

Definition collect (g : Gen unit) : list BaseMetadata := snd g.

Notation "g1 >> g2" := (gbind g1 (fun _ => g2))
  (at level 62, right associativity) : py_scope.

(** ** Interval *)

Record Interval : Type := mkInterval {
  gt : value;
  ge : value;
  lt : value;
  le : value
}.

(** [Interval(gt=..., ge=..., lt=..., le=...)]: keyword-only arguments, each
    defaulting to [None] when omitted. *)
Definition keyword (arg : option value) : value :=
  match arg with Some v => v | None => VNone end.

Definition Interval_new (gt ge lt le : option value) : Interval :=
  mkInterval (keyword gt) (keyword ge) (keyword lt) (keyword le).

(** [replace(self, <field>=other)] *)
Definition replace_gt (self : Interval) (v : value) : Interval :=
  mkInterval v (ge self) (lt self) (le self).
Definition replace_ge (self : Interval) (v : value) : Interval :=
  mkInterval (gt self) v (lt self) (le self).
Definition replace_lt (self : Interval) (v : value) : Interval :=
  mkInterval (gt self) (ge self) v (le self).
Definition replace_le (self : Interval) (v : value) : Interval :=
  mkInterval (gt self) (ge self) (lt self) v.

Definition Interval___iter__ (self : Interval) : Gen unit :=
  when (is_not_None (gt self)) (yield (Gt (gt self))) >>
  when (is_not_None (ge self)) (yield (Ge (ge self))) >>
  when (is_not_None (lt self)) (yield (Lt (lt self))) >>
  when (is_not_None (le self)) (yield (Le (le self))).

(** [which: Literal["lo", "hi"]] is a string at run time. *)
Definition Interval___check (self : Interval) (other : value)
    (which : string) : result unit :=
  if (String.eqb which "lo"
        && (is_not_None (lt self) || is_not_None (le self)))
     || (String.eqb which "hi"
        && (is_not_None (gt self) || is_not_None (ge self)))
  then Raise ValueError
  else Ok tt.

Definition Interval___lt__ (self : Interval) (other : value) : result Interval :=
  Interval___check self other "lo" ;;
  Ok (replace_lt self other).

Definition Interval___le__ (self : Interval) (other : value) : result Interval :=
  Interval___check self other "lo" ;;
  Ok (replace_le self other).

Definition Interval___ge__ (self : Interval) (other : value) : result Interval :=
  Interval___check self other "hi" ;;
  Ok (replace_ge self other).

Definition Interval___gt__ (self : Interval) (other : value) : result Interval :=
  Interval___check self other "hi" ;;
  Ok (replace_gt self other).

(** ** Len *)

(** Integer [min(a, b)] and [max(a, b)] as the builtins compute them: the
    first argument is kept unless the second is strictly better. *)
Definition py_min (a b : Z) : Z := if b <? a then b else a.
Definition py_max (a b : Z) : Z := if b >? a then b else a.

(** An [Optional[int]] used as an operand of [-] or of an ordering
    comparison against an [int]: [None] raises [TypeError]. *)
Definition int_operand (o : option Z) : result Z :=
  match o with
  | Some n => Ok n
  | None => Raise TypeError
  end.

Definition option_Z_eqb (a b : option Z) : bool :=
  match a, b with
  | Some x, Some y => x =? y
  | None, None => true
  | _, _ => false
  end.

Definition replace_min_length (self : Len) (n : Z) : Len :=
  mkLen n (max_length self).
Definition replace_max_length (self : Len) (n : Z) : Len :=
  mkLen (min_length self) (Some n).

Definition Len___iter__ (self : Len) : Gen unit :=
  when (min_length self >? 0) (yield (MinLen (min_length self))) >>
  match max_length self with
  | Some n => yield (MaxLen n)
  | None => gret tt
  end.

(** [which != s] for [which: Literal["min", "max", None]]. *)
Definition which_ne (which : option string) (s : string) : bool :=
  match which with
  | Some w => negb (String.eqb w s)
  | None => true
  end.

Definition Len___check (self : Len) (other : value)
    (which : option string) : result unit :=
  if negb (isinstance_int other) then Raise TypeError
  else if (which_ne which "max" && negb (min_length self =? 0))
          || (which_ne which "min"
              && match max_length self with Some _ => true | None => false end)
  then Raise ValueError
  else Ok tt.

Definition Len___eq__ (self : Len) (other : value) : result value :=
  match other with
  | VLen o =>
      Ok (VBool ((min_length self =? min_length o)
                 && option_Z_eqb (max_length self) (max_length o)))
  | _ =>
      Len___check self other None ;;
      n <- as_int other ;;
      Ok (VLen (Len_new (Some n) (Some n)))
  end.

Definition Len___lt__ (self : Len) (other : value) : result Len :=
  Len___check self other (Some "max"%string) ;;
  cur <- int_operand (max_length self) ;;
  n <- as_int other ;;
  Ok (replace_max_length self (py_min (cur - 1) n)).

Definition Len___le__ (self : Len) (other : value) : result Len :=
  Len___check self other (Some "max"%string) ;;
  n <- as_int other ;;
  cur <- int_operand (max_length self) ;;
  Ok (replace_max_length self (py_min cur n)).

Definition Len___ge__ (self : Len) (other : value) : result Len :=
  Len___check self other (Some "min"%string) ;;
  n <- as_int other ;;
  Ok (replace_min_length self (py_max (min_length self) n)).

Definition Len___gt__ (self : Len) (other : value) : result Len :=
  Len___check self other (Some "min"%string) ;;
  n <- as_int other ;;
  Ok (replace_min_length self (py_max (min_length self + 1) n)).

(** ** The builder singletons *)

(** [__Magic] and [__LenMagic] have no fields. *)
Inductive Magic : Type := X.
Inductive LenMagic : Type := len_X.

Definition Magic___lt__ (self : Magic) (other : value) : Interval :=
  Interval_new None None (Some other) None.

Definition Magic___le__ (self : Magic) (other : value) : Interval :=
  Interval_new None None None (Some other).

Definition Magic___eq__ (self : Magic) (other : value) : Interval :=
  Interval_new None (Some other) None (Some other).

Definition Magic___ge__ (self : Magic) (other : value) : Interval :=
  Interval_new None (Some other) None None.

Definition Magic___gt__ (self : Magic) (other : value) : Interval :=
  Interval_new (Some other) None None None.

Definition LenMagic___check (self : LenMagic) (other : value) : result unit :=
  if negb (isinstance_int other) then Raise TypeError else Ok tt.

Definition LenMagic___lt__ (self : LenMagic) (other : value) : result Len :=
  LenMagic___check self other ;;
  n <- as_int other ;;
  Ok (Len_new None (Some (n - 1))).

Definition LenMagic___le__ (self : LenMagic) (other : value) : result Len :=
  LenMagic___check self other ;;
  n <- as_int other ;;
  Ok (Len_new None (Some n)).

(** In the first branch [other] is a [__LenMagic]; [super().__eq__] is
    [object.__eq__], identity, and [len_X] is the only instance. *)
Definition LenMagic___eq__ (self : LenMagic) (other : value) : result value :=
  match other with
  | VLenMagic => Ok (VBool true)
  | _ =>
      LenMagic___check self other ;;
      n <- as_int other ;;
      Ok (VLen (Len_new (Some n) (Some n)))
  end.

Definition LenMagic___ge__ (self : LenMagic) (other : value) : result Len :=
  LenMagic___check self other ;;
  n <- as_int other ;;
  Ok (Len_new (Some n) None).

Definition LenMagic___gt__ (self : LenMagic) (other : value) : result Len :=
  LenMagic___check self other ;;
  n <- as_int other ;;
  Ok (Len_new (Some (n + 1)) None).

(** ** Classes and [GroupedMetadata]

    The subclass hook inspects the class being created, so classes are
    modelled as far as the hook looks: a name, one base and the namespace of
    the class body (single inheritance, so the method resolution order is
    the chain of bases).  Function objects are compared by identity. *)

Inductive pyfunc : Type :=
| GroupedMetadata___init_subclass___fn
| GroupedMetadata___iter___fn
| Function (qualname : string).

(** [f is g] *)
Definition pyfunc_is (f g : pyfunc) : bool :=
  match f, g with
  | GroupedMetadata___init_subclass___fn, GroupedMetadata___init_subclass___fn => true
  | GroupedMetadata___iter___fn, GroupedMetadata___iter___fn => true
  | Function a, Function b => String.eqb a b
  | _, _ => false
  end.

Definition namespace : Type := list (string * pyfunc).

Fixpoint ns_lookup (ns : namespace) (name : string) : option pyfunc :=
  match ns with
  | [] => None
  | (k, f) :: rest => if String.eqb k name then Some f else ns_lookup rest name
  end.

Inductive pyclass : Type :=
| object
| Class (name : string) (base : pyclass) (dict : namespace).

(** [cls.<name>]: the first namespace along the bases that binds the name. *)
Fixpoint type_getattr (cls : pyclass) (name : string) : option pyfunc :=
  match cls with
  | object => None
  | Class _ base dict =>
      match ns_lookup dict name with
      | Some f => Some f
      | None => type_getattr base name
      end
  end.

Definition GroupedMetadata : pyclass :=
  Class "GroupedMetadata" object
    [("__init_subclass__"%string, GroupedMetadata___init_subclass___fn);
     ("__iter__"%string, GroupedMetadata___iter___fn)].

(** [super().__init_subclass__()] reaches [object.__init_subclass__], which
    returns [None]; then the identity test on the resolved [__iter__]. *)
Definition GroupedMetadata___init_subclass__ (cls : pyclass) : result unit :=
  match type_getattr cls "__iter__" with
  | None => Raise AttributeError
  | Some f =>
      if pyfunc_is f GroupedMetadata___iter___fn
      then Raise TypeError
      else Ok tt
  end.

Definition GroupedMetadata___iter__ {A : Type} (self : A) : result (Gen unit) :=
  Raise NotImplementedError.

(** The hook that class creation runs: [super(cls, cls).__init_subclass__],
    looked up from the base.  Hooks other than [GroupedMetadata]'s (that of
    [object], or one supplied by a user class) accept every class. *)
Definition run_init_subclass (base cls : pyclass) : result unit :=
  match type_getattr base "__init_subclass__" with
  | Some GroupedMetadata___init_subclass___fn =>
      GroupedMetadata___init_subclass__ cls
  | _ => Ok tt
  end.

(** [class name(base): <dict>] without class keywords. *)
Definition class_statement (name : string) (base : pyclass)
    (dict : namespace) : result pyclass :=
  let cls := Class name base dict in
  run_init_subclass base cls ;;
  Ok cls.

(** ** Vocabulary of the statements *)

Definition lower_bound_set (i : Interval) : bool :=
  is_not_None (gt i) || is_not_None (ge i).

Definition upper_bound_set (i : Interval) : bool :=
  is_not_None (lt i) || is_not_None (le i).

(** A single bound whose stored value is not [None]. *)
Definition bound_present (m : BaseMetadata) : bool :=
  match m with
  | Gt v | Ge v | Lt v | Le v => is_not_None v
  | _ => true
  end.

(** The declared field constraints of [Len]: [min_length >= 0], and
    [max_length >= 0] when present. *)
Definition Len_fields_nonneg (l : Len) : Prop :=
  0 <= min_length l
  /\ match max_length l with Some m => 0 <= m | None => True end.

(** A [Len] on which no bound has been set: the state of [Len()]. *)
Definition Len_unbounded (l : Len) : bool :=
  (min_length l =? 0)
  && match max_length l with Some _ => false | None => true end.

(** At most one lower bound and at most one upper bound is set. *)
Definition Interval_exclusive (i : Interval) : bool :=
  negb (is_not_None (gt i) && is_not_None (ge i))
  && negb (is_not_None (lt i) && is_not_None (le i)).

(** The Intervals a caller obtains from the numeric builder: one comparison
    on [X], then any number of narrowings that return. *)
Inductive from_builder : Interval -> Prop :=
| fb_lt (v : value) : from_builder (Magic___lt__ X v)
| fb_le (v : value) : from_builder (Magic___le__ X v)
| fb_eq (v : value) : from_builder (Magic___eq__ X v)
| fb_ge (v : value) : from_builder (Magic___ge__ X v)
| fb_gt (v : value) : from_builder (Magic___gt__ X v)
| fb_narrow_lt (i r : Interval) (v : value) :
    from_builder i -> Interval___lt__ i v = Ok r -> from_builder r
| fb_narrow_le (i r : Interval) (v : value) :
    from_builder i -> Interval___le__ i v = Ok r -> from_builder r
| fb_narrow_ge (i r : Interval) (v : value) :
    from_builder i -> Interval___ge__ i v = Ok r -> from_builder r
| fb_narrow_gt (i r : Interval) (v : value) :
    from_builder i -> Interval___gt__ i v = Ok r -> from_builder r.

(** The classes obtained from [GroupedMetadata] by class statements that
    return and whose bodies leave [__init_subclass__] alone. *)
Inductive GroupedMetadata_subclass : pyclass -> Prop :=
| gs_direct (name : string) (dict : namespace) (cls : pyclass) :
    ns_lookup dict "__init_subclass__" = None ->
    class_statement name GroupedMetadata dict = Ok cls ->
    GroupedMetadata_subclass cls
| gs_derived (name : string) (base : pyclass) (dict : namespace)
    (cls : pyclass) :
    GroupedMetadata_subclass base ->
    ns_lookup dict "__init_subclass__" = None ->
    class_statement name base dict = Ok cls ->
    GroupedMetadata_subclass cls.

(** * Properties *)

(** ** Helper facts about the integer builtins and [isinstance] *)

Lemma py_min_spec (a b : Z) : py_min a b = Z.min a b.
Proof. unfold py_min. destruct (Z.ltb_spec b a); lia. Qed.

Lemma py_max_spec (a b : Z) : py_max a b = Z.max a b.
Proof.
  unfold py_max. rewrite Z.gtb_ltb. destruct (Z.ltb_spec a b); lia.
Qed.

Lemma as_int_of_int_value (v : value) (n : Z) :
  int_value v = Some n -> as_int v = Ok n /\ isinstance_int v = true.
Proof. intros H. unfold as_int, isinstance_int. rewrite H. split; reflexivity. Qed.

(** ** Interval *)

Lemma Interval_check_lo (self : Interval) (other : value) :
  Interval___check self other "lo" =
  if upper_bound_set self then Raise ValueError else Ok tt.
Proof.
  unfold Interval___check, upper_bound_set.
  cbn [String.eqb Ascii.eqb Bool.eqb andb].
  now rewrite orb_false_r.
Qed.

Lemma Interval_check_hi (self : Interval) (other : value) :
  Interval___check self other "hi" =
  if lower_bound_set self then Raise ValueError else Ok tt.
Proof.
  unfold Interval___check, lower_bound_set.
  cbn [String.eqb Ascii.eqb Bool.eqb andb].
  reflexivity.
Qed.

(** C1, as the spec words it, at [Interval(gt=1) < 5]: a lower bound is set,
    yet the less-than narrowing does not fail; it returns
    [Interval(gt=1, lt=5)]. *)
Lemma Interval_lt_with_lower_bound_succeeds :
  lower_bound_set (Interval_new (Some (VInt 1)) None None None) = true
  /\ Interval___lt__ (Interval_new (Some (VInt 1)) None None None) (VInt 5)
     = Ok (Interval_new (Some (VInt 1)) None (Some (VInt 5)) None)
  /\ Interval___lt__ (Interval_new (Some (VInt 1)) None None None) (VInt 5)
     <> Raise ValueError.
Proof. repeat split; try reflexivity. discriminate. Qed.

(** C1 (amended): the less-than and less-or-equal narrowings raise
    [ValueError] (the spec's ConflictError) exactly when an upper bound
    ([lt] or [le]) is already set, and otherwise return a copy with [lt]
    (resp. [le]) replaced by [other]; greater-or-equal and greater-than raise
    exactly when a lower bound ([gt] or [ge]) is already set, and otherwise
    return a copy with [ge] (resp. [gt]) replaced by [other]. *)
Theorem Interval_narrowing_guard (self : Interval) (other : value) :
  Interval___lt__ self other
    = (if upper_bound_set self then Raise ValueError
       else Ok {| gt := gt self; ge := ge self; lt := other; le := le self |})
  /\ Interval___le__ self other
    = (if upper_bound_set self then Raise ValueError
       else Ok {| gt := gt self; ge := ge self; lt := lt self; le := other |})
  /\ Interval___ge__ self other
    = (if lower_bound_set self then Raise ValueError
       else Ok {| gt := gt self; ge := other; lt := lt self; le := le self |})
  /\ Interval___gt__ self other
    = (if lower_bound_set self then Raise ValueError
       else Ok {| gt := other; ge := ge self; lt := lt self; le := le self |}).
Proof.
  unfold Interval___lt__, Interval___le__, Interval___ge__, Interval___gt__.
  rewrite Interval_check_lo, Interval_check_hi.
  destruct (upper_bound_set self), (lower_bound_set self); repeat split.
Qed.

(** C3: expanding an [Interval] yields the bounds that are set, in the fixed
    order gt, ge, lt, le: the candidates [Gt gt; Ge ge; Lt lt; Le le] with
    the unset ones dropped.  [Interval()] expands to nothing, [Interval(gt=1)]
    to [Gt(1)], and [Interval(gt=1, le=5)] to [Gt(1); Le(5)]. *)
Theorem Interval_iter_order (i : Interval) :
  collect (Interval___iter__ i)
    = filter bound_present [Gt (gt i); Ge (ge i); Lt (lt i); Le (le i)]
  /\ collect (Interval___iter__ (Interval_new None None None None)) = []
  /\ collect (Interval___iter__ (Interval_new (Some (VInt 1)) None None None))
     = [Gt (VInt 1)]
  /\ collect (Interval___iter__
                (Interval_new (Some (VInt 1)) None None (Some (VInt 5))))
     = [Gt (VInt 1); Le (VInt 5)].
Proof.
  split; [| repeat split].
  destruct i as [g1 g2 l1 l2]. unfold Interval___iter__, collect.
  cbn [gt ge lt le filter bound_present].
  destruct (is_not_None g1), (is_not_None g2), (is_not_None l1), (is_not_None l2);
    reflexivity.
Qed.

(** C4: chained narrowing from the numeric builder.  [(X > a) <= b] is
    [Interval(gt=a, le=b)] for all operands, in particular
    [(X > 1) <= 5 = Interval(gt=1, le=5)]; a further lower-bound narrowing
    ([>=] or [>]) of that result raises [ValueError]; and [(X > 0) <= 100]
    expands to exactly [Gt(0); Le(100)]. *)
Theorem chained_narrowing :
  (forall a b : value,
      Interval___le__ (Magic___gt__ X a) b
      = Ok (Interval_new (Some a) None None (Some b)))
  /\ Interval___le__ (Magic___gt__ X (VInt 1)) (VInt 5)
     = Ok (Interval_new (Some (VInt 1)) None None (Some (VInt 5)))
  /\ (forall (r : Interval) (other : value),
        Interval___le__ (Magic___gt__ X (VInt 1)) (VInt 5) = Ok r ->
        Interval___ge__ r other = Raise ValueError
        /\ Interval___gt__ r other = Raise ValueError)
  /\ (exists r : Interval,
        Interval___le__ (Magic___gt__ X (VInt 0)) (VInt 100) = Ok r
        /\ collect (Interval___iter__ r) = [Gt (VInt 0); Le (VInt 100)]).
Proof.
  split; [| split; [| split]].
  - intros a b. reflexivity.
  - reflexivity.
  - intros r other Hr. inversion Hr; subst r. split; reflexivity.
  - eexists. split; reflexivity.
Qed.

Lemma chained_narrowing_witness :
  Interval___le__ (Magic___gt__ X (VInt 1)) (VInt 5)
    = Ok (mkInterval (VInt 1) VNone VNone (VInt 5))
  /\ Interval___ge__ (mkInterval (VInt 1) VNone VNone (VInt 5)) (VInt 3)
     = Raise ValueError
  /\ Interval___gt__ (mkInterval (VInt 1) VNone VNone (VInt 5)) (VInt 3)
     = Raise ValueError.
Proof.
  split; [reflexivity |].
  apply (proj1 (proj2 (proj2 chained_narrowing))
           (mkInterval (VInt 1) VNone VNone (VInt 5)) (VInt 3)).
  reflexivity.
Defined.

(** ** The builders *)

(** C5: every comparison on the numeric builder returns an [Interval] that
    depends on the operand only, with the corresponding bound equal to the
    operand and the others [None] ([==] sets both [ge] and [le]); on the
    length builder, for an integer operand [n], [<] gives [max_length = n-1],
    [<=] gives [max_length = n], [>=] gives [min_length = n], [>] gives
    [min_length = n+1] (the other bound at its default), and [==] gives
    [min_length = max_length = n]. *)
Theorem builder_comparisons :
  (forall other : value,
      Magic___lt__ X other
        = {| gt := VNone; ge := VNone; lt := other; le := VNone |}
      /\ Magic___le__ X other
         = {| gt := VNone; ge := VNone; lt := VNone; le := other |}
      /\ Magic___eq__ X other
         = {| gt := VNone; ge := other; lt := VNone; le := other |}
      /\ Magic___ge__ X other
         = {| gt := VNone; ge := other; lt := VNone; le := VNone |}
      /\ Magic___gt__ X other
         = {| gt := other; ge := VNone; lt := VNone; le := VNone |})
  /\ (forall (other : value) (n : Z),
        int_value other = Some n ->
        LenMagic___lt__ len_X other = Ok (mkLen 0 (Some (n - 1)))
        /\ LenMagic___le__ len_X other = Ok (mkLen 0 (Some n))
        /\ LenMagic___eq__ len_X other = Ok (VLen (mkLen n (Some n)))
        /\ LenMagic___ge__ len_X other = Ok (mkLen n None)
        /\ LenMagic___gt__ len_X other = Ok (mkLen (n + 1) None)).
Proof.
  split.
  - intros other. repeat split.
  - intros other n Hn.
    destruct (as_int_of_int_value other n Hn) as [Has Hinst].
    unfold LenMagic___lt__, LenMagic___le__, LenMagic___eq__, LenMagic___ge__,
      LenMagic___gt__, LenMagic___check.
    rewrite Has, Hinst. cbn [negb bind Len_new].
    repeat split.
    destruct other; try reflexivity; discriminate Hn.
Qed.

Lemma builder_comparisons_witness :
  int_value (VInt 7) = Some 7
  /\ LenMagic___lt__ len_X (VInt 7) = Ok (mkLen 0 (Some 6))
  /\ LenMagic___le__ len_X (VInt 7) = Ok (mkLen 0 (Some 7))
  /\ LenMagic___eq__ len_X (VInt 7) = Ok (VLen (mkLen 7 (Some 7)))
  /\ LenMagic___ge__ len_X (VInt 7) = Ok (mkLen 7 None)
  /\ LenMagic___gt__ len_X (VInt 7) = Ok (mkLen 8 None).
Proof.
  split; [reflexivity |].
  exact (proj2 builder_comparisons (VInt 7) 7 eq_refl).
Defined.

(** ** Len *)

Lemma Len_check_max (self : Len) (other : value) (n : Z) :
  int_value other = Some n ->
  Len___check self other (Some "max"%string) =
  match max_length self with Some _ => Raise ValueError | None => Ok tt end.
Proof.
  intros Hn. destruct (as_int_of_int_value other n Hn) as [_ Hinst].
  unfold Len___check. rewrite Hinst.
  cbn [negb which_ne String.eqb Ascii.eqb Bool.eqb andb orb].
  destruct (max_length self); reflexivity.
Qed.

Lemma Len_check_not_int (self : Len) (other : value) (which : option string) :
  isinstance_int other = false -> Len___check self other which = Raise TypeError.
Proof. intros H. unfold Len___check. rewrite H. reflexivity. Qed.

(** Whatever the receiver and the operand, [Len.__le__] and [Len.__lt__]
    raise: the guard rejects a present [max_length], and an absent one is
    not a valid operand of [min] or [-]. *)
Lemma Len_upper_narrowing_never_returns (self : Len) (other : value) :
  succeeds (Len___le__ self other) = false
  /\ succeeds (Len___lt__ self other) = false.
Proof.
  unfold Len___le__, Len___lt__.
  destruct (int_value other) as [n |] eqn:Hn.
  - rewrite (Len_check_max self other n Hn).
    destruct (as_int_of_int_value other n Hn) as [Has _]. rewrite Has.
    destruct (max_length self); split; reflexivity.
  - assert (Hinst : isinstance_int other = false)
      by (unfold isinstance_int; now rewrite Hn).
    rewrite (Len_check_not_int self other _ Hinst). split; reflexivity.
Qed.

(** C2, as the spec words it, at [len_X <= 3] followed by [<= 5]: the spec
    has [max_length] stay at 3, the second narrowing raises [ValueError]. *)
Lemma Len_le_twice_raises :
  LenMagic___le__ len_X (VInt 3) = Ok (mkLen 0 (Some 3))
  /\ Len___le__ (mkLen 0 (Some 3)) (VInt 5) = Raise ValueError
  /\ Len___le__ (mkLen 0 (Some 3)) (VInt 5)
     <> Ok (mkLen 0 (Some (Z.min 3 5))).
Proof. repeat split; try reflexivity. discriminate. Qed.

(** C2 (amended): less-or-equal on a [Len] whose [max_length] is already
    present never widens it, because it never returns: it raises
    [ValueError] for every integer operand.  In particular [len_X <= n]
    followed by [<= m] raises [ValueError] for all integers [n], [m]. *)
Theorem Len_le_guard :
  (forall (self : Len) (other : value) (cur n : Z),
      max_length self = Some cur ->
      int_value other = Some n ->
      Len___le__ self other = Raise ValueError)
  /\ (forall (n m : Z) (l : Len),
        LenMagic___le__ len_X (VInt n) = Ok l ->
        max_length l = Some n /\ Len___le__ l (VInt m) = Raise ValueError).
Proof.
  assert (H1 : forall (self : Len) (other : value) (cur n : Z),
             max_length self = Some cur -> int_value other = Some n ->
             Len___le__ self other = Raise ValueError).
  { intros self other cur n Hcur Hn. unfold Len___le__.
    rewrite (Len_check_max self other n Hn), Hcur. reflexivity. }
  split; [exact H1 |].
  intros n m l Hl. inversion Hl; subst l. split; [reflexivity |].
  apply (H1 _ (VInt m) n m); reflexivity.
Qed.

Lemma Len_le_guard_witness :
  max_length (mkLen 0 (Some 3)) = Some 3
  /\ int_value (VInt 5) = Some 5
  /\ Len___le__ (mkLen 0 (Some 3)) (VInt 5) = Raise ValueError
  /\ LenMagic___le__ len_X (VInt 3) = Ok (mkLen 0 (Some 3))
  /\ max_length (mkLen 0 (Some 3)) = Some 3
  /\ Len___le__ (mkLen 0 (Some 3)) (VInt 5) = Raise ValueError.
Proof.
  split; [reflexivity |]. split; [reflexivity |].
  split.
  { exact (proj1 Len_le_guard (mkLen 0 (Some 3)) (VInt 5) 3 5 eq_refl eq_refl). }
  split; [reflexivity |].
  exact (proj2 Len_le_guard 3 5 (mkLen 0 (Some 3)) eq_refl).
Defined.

(** C6: expanding a [Len] yields [MinLen(min_length)] exactly when
    [min_length > 0], then [MaxLen(max_length)] exactly when [max_length] is
    present, and nothing else.  [Len()] expands to nothing,
    [Len(min_length=2)] to [MinLen(2)], and [Len(min_length=0, max_length=10)]
    to [MaxLen(10)]. *)
Theorem Len_iter_spec (l : Len) :
  collect (Len___iter__ l)
    = (if 0 <? min_length l then [MinLen (min_length l)] else [])
      ++ (match max_length l with Some m => [MaxLen m] | None => [] end)
  /\ (forall n, In (MinLen n) (collect (Len___iter__ l))
                <-> n = min_length l /\ 0 < n)
  /\ (forall m, In (MaxLen m) (collect (Len___iter__ l))
                <-> max_length l = Some m)
  /\ collect (Len___iter__ (Len_new None None)) = []
  /\ collect (Len___iter__ (Len_new (Some 2) None)) = [MinLen 2]
  /\ collect (Len___iter__ (Len_new (Some 0) (Some 10))) = [MaxLen 10].
Proof.
  assert (Heq : collect (Len___iter__ l)
    = (if 0 <? min_length l then [MinLen (min_length l)] else [])
      ++ (match max_length l with Some m => [MaxLen m] | None => [] end)).
  { destruct l as [mn mx]. unfold Len___iter__, collect.
    cbn [min_length max_length]. rewrite Z.gtb_ltb.
    destruct (0 <? mn), mx; reflexivity. }
  split; [exact Heq |]. rewrite Heq. clear Heq.
  destruct l as [mn mx]. cbn [min_length max_length].
  split; [| split; [| repeat split]].
  - intros n. destruct (Z.ltb_spec 0 mn), mx; cbn [app In];
      intuition (try discriminate; try congruence; try lia).
  - intros m. destruct (0 <? mn), mx; cbn [app In];
      intuition (try discriminate; try congruence).
Qed.

Lemma Len_check_any (self : Len) (other : value) (n : Z) :
  int_value other = Some n ->
  Len___check self other None =
  if Len_unbounded self then Ok tt else Raise ValueError.
Proof.
  intros Hn. destruct (as_int_of_int_value other n Hn) as [_ Hinst].
  unfold Len___check, Len_unbounded. rewrite Hinst.
  cbn [negb which_ne andb].
  destruct (min_length self =? 0), (max_length self); reflexivity.
Qed.

Lemma option_Z_eqb_eq (a b : option Z) : option_Z_eqb a b = true <-> a = b.
Proof.
  destruct a as [x |], b as [y |]; cbn; try rewrite Z.eqb_eq;
    split; intros H; try congruence; try discriminate.
Qed.

(** C7, as the spec words it, at [Len(min_length=3) == 5] and at
    [Len(min_length=5, max_length=5) == 5]: neither comparison yields
    [Len(min_length=5, max_length=5)]; both raise [ValueError]. *)
Lemma Len_eq_int_on_bounded_raises :
  Len___eq__ (Len_new (Some 3) None) (VInt 5) = Raise ValueError
  /\ Len___eq__ (Len_new (Some 3) None) (VInt 5)
     <> Ok (VLen (Len_new (Some 5) (Some 5)))
  /\ Len___eq__ (Len_new (Some 5) (Some 5)) (VInt 5) = Raise ValueError.
Proof. repeat split; try reflexivity. discriminate. Qed.

(** C7 (amended): comparing a [Len] on which no bound is set ([min_length]
    0, no [max_length]) against a bare integer [n] returns
    [Len(min_length=n, max_length=n)], so [Len() == 5] is
    [Len(min_length=5, max_length=5)]; on a [Len] that already carries a
    bound the comparison raises [ValueError].  Comparing two [Len] values
    returns a boolean, which is [True] exactly when both bounds match. *)
Theorem Len_eq_spec :
  (forall (self : Len) (other : value) (n : Z),
      int_value other = Some n ->
      Len___eq__ self other
      = if Len_unbounded self then Ok (VLen (mkLen n (Some n)))
        else Raise ValueError)
  /\ Len___eq__ (Len_new None None) (VInt 5)
     = Ok (VLen (Len_new (Some 5) (Some 5)))
  /\ (forall a b : Len,
        exists t : bool,
          Len___eq__ a (VLen b) = Ok (VBool t)
          /\ (t = true <->
              min_length a = min_length b /\ max_length a = max_length b)).
Proof.
  split; [| split].
  - intros self other n Hn.
    destruct (as_int_of_int_value other n Hn) as [Has _].
    assert (Hbody : Len___eq__ self other
                    = (Len___check self other None ;;
                       k <- as_int other ;;
                       Ok (VLen (Len_new (Some k) (Some k))))).
    { destruct other; try reflexivity; discriminate Hn. }
    rewrite Hbody, (Len_check_any self other n Hn), Has.
    destruct (Len_unbounded self); reflexivity.
  - reflexivity.
  - intros a b. eexists. split; [reflexivity |].
    rewrite andb_true_iff, Z.eqb_eq, option_Z_eqb_eq. reflexivity.
Qed.

Lemma Len_eq_spec_witness :
  int_value (VInt 5) = Some 5
  /\ Len___eq__ (mkLen 0 None) (VInt 5) = Ok (VLen (mkLen 5 (Some 5))).
Proof.
  split; [reflexivity |].
  exact (proj1 Len_eq_spec (mkLen 0 None) (VInt 5) 5 eq_refl).
Defined.

(** C8, as the spec words it, at [len_X < 0] and [len_X >= -5]: the builder
    returns [Len(max_length=-1)] and [Len(min_length=-5)], which break the
    declared non-negativity of the fields. *)
Lemma LenMagic_negative_bound :
  LenMagic___lt__ len_X (VInt 0) = Ok (mkLen 0 (Some (-1)))
  /\ ~ Len_fields_nonneg (mkLen 0 (Some (-1)))
  /\ LenMagic___ge__ len_X (VInt (-5)) = Ok (mkLen (-5) None)
  /\ ~ Len_fields_nonneg (mkLen (-5) None).
Proof.
  unfold Len_fields_nonneg. cbn.
  repeat split; try reflexivity; intros [H1 H2]; lia.
Qed.

(** C8 (amended): for an integer operand [n] each length-builder comparison
    returns a [Len], and that [Len] has non-negative fields exactly when
    [n >= 1] for [<], [n >= 0] for [<=], [==] and [>=], and [n >= -1] for
    [>]; the builder itself does not validate [n]. *)
Theorem LenMagic_fields_nonneg (other : value) (n : Z) :
  int_value other = Some n ->
  (exists l, LenMagic___lt__ len_X other = Ok l
             /\ (Len_fields_nonneg l <-> 1 <= n))
  /\ (exists l, LenMagic___le__ len_X other = Ok l
                /\ (Len_fields_nonneg l <-> 0 <= n))
  /\ (exists l, LenMagic___eq__ len_X other = Ok (VLen l)
                /\ (Len_fields_nonneg l <-> 0 <= n))
  /\ (exists l, LenMagic___ge__ len_X other = Ok l
                /\ (Len_fields_nonneg l <-> 0 <= n))
  /\ (exists l, LenMagic___gt__ len_X other = Ok l
                /\ (Len_fields_nonneg l <-> -1 <= n)).
Proof.
  intros Hn.
  destruct (as_int_of_int_value other n Hn) as [Has Hinst].
  assert (Heq : LenMagic___eq__ len_X other
                = (LenMagic___check len_X other ;;
                   k <- as_int other ;; Ok (VLen (Len_new (Some k) (Some k))))).
  { destruct other; try reflexivity; discriminate Hn. }
  rewrite Heq.
  unfold LenMagic___lt__, LenMagic___le__, LenMagic___ge__, LenMagic___gt__,
    LenMagic___check.
  rewrite Has, Hinst. cbn [negb bind Len_new].
  repeat split; eexists; (split; [reflexivity |]);
    unfold Len_fields_nonneg; cbn [Len_new min_length max_length];
    intuition lia.
Qed.

Lemma LenMagic_fields_nonneg_witness :
  int_value (VInt 1) = Some 1
  /\ (exists l, LenMagic___lt__ len_X (VInt 1) = Ok l
                /\ (Len_fields_nonneg l <-> 1 <= 1))
  /\ (exists l, LenMagic___le__ len_X (VInt 1) = Ok l
                /\ (Len_fields_nonneg l <-> 0 <= 1))
  /\ (exists l, LenMagic___eq__ len_X (VInt 1) = Ok (VLen l)
                /\ (Len_fields_nonneg l <-> 0 <= 1))
  /\ (exists l, LenMagic___ge__ len_X (VInt 1) = Ok l
                /\ (Len_fields_nonneg l <-> 0 <= 1))
  /\ (exists l, LenMagic___gt__ len_X (VInt 1) = Ok l
                /\ (Len_fields_nonneg l <-> -1 <= 1)).
Proof.
  split; [reflexivity |].
  exact (LenMagic_fields_nonneg (VInt 1) 1 eq_refl).
Defined.

(** C9: each of [Len]'s four narrowing operators raises [TypeError] when
    its operand is not an [int], and so does [Len.__eq__] when its operand
    is neither a [Len] nor an [int]. *)
Theorem Len_rejects_non_int (self : Len) (other : value) :
  isinstance_int other = false ->
  Len___lt__ self other = Raise TypeError
  /\ Len___le__ self other = Raise TypeError
  /\ Len___ge__ self other = Raise TypeError
  /\ Len___gt__ self other = Raise TypeError
  /\ ((forall o : Len, other <> VLen o) ->
      Len___eq__ self other = Raise TypeError).
Proof.
  intros Hinst.
  unfold Len___lt__, Len___le__, Len___ge__, Len___gt__.
  rewrite !(Len_check_not_int self other _ Hinst).
  repeat split.
  intros Hnot. unfold Len___eq__.
  destruct other as [| b | k | s | o | | ty id];
    try (rewrite (Len_check_not_int self _ None Hinst); reflexivity).
  exfalso. apply (Hnot o). reflexivity.
Qed.

Lemma Len_rejects_non_int_witness :
  isinstance_int (VStr "five") = false
  /\ Len___lt__ (mkLen 0 None) (VStr "five") = Raise TypeError
  /\ Len___le__ (mkLen 0 None) (VStr "five") = Raise TypeError
  /\ Len___ge__ (mkLen 0 None) (VStr "five") = Raise TypeError
  /\ Len___gt__ (mkLen 0 None) (VStr "five") = Raise TypeError
  /\ Len___eq__ (mkLen 0 None) (VStr "five") = Raise TypeError.
Proof.
  split; [reflexivity |].
  destruct (Len_rejects_non_int (mkLen 0 None) (VStr "five") eq_refl)
    as (H1 & H2 & H3 & H4 & H5).
  split; [exact H1 |]. split; [exact H2 |]. split; [exact H3 |].
  split; [exact H4 |].
  apply H5. intros o Ho. discriminate Ho.
Defined.

(** ** GroupedMetadata *)

(** C10: a class statement deriving from [GroupedMetadata] whose body binds
    no [__iter__] raises [TypeError] from the statement itself, so no class
    object exists to instantiate or iterate; a body that binds its own
    [__iter__] is accepted and the statement returns the new class.  The
    two grouped constraints of the module are accepted on that ground. *)
Theorem GroupedMetadata_subclass_check :
  (forall (name : string) (dict : namespace),
      ns_lookup dict "__iter__" = None ->
      class_statement name GroupedMetadata dict = Raise TypeError)
  /\ (forall (name : string) (dict : namespace) (f : pyfunc),
        ns_lookup dict "__iter__" = Some f ->
        pyfunc_is f GroupedMetadata___iter___fn = false ->
        class_statement name GroupedMetadata dict
        = Ok (Class name GroupedMetadata dict))
  /\ succeeds (class_statement "Interval" GroupedMetadata
                 [("__iter__"%string, Function "Interval.__iter__");
                  ("__lt__"%string, Function "Interval.__lt__")]) = true
  /\ succeeds (class_statement "Len" GroupedMetadata
                 [("__iter__"%string, Function "Len.__iter__");
                  ("__eq__"%string, Function "Len.__eq__")]) = true.
Proof.
  split; [| split; [| split; reflexivity]].
  - intros name dict Hnone.
    unfold class_statement, run_init_subclass.
    cbn [GroupedMetadata type_getattr ns_lookup String.eqb Ascii.eqb Bool.eqb].
    unfold GroupedMetadata___init_subclass__.
    cbn [type_getattr]. rewrite Hnone.
    reflexivity.
  - intros name dict f Hsome Hnot.
    unfold class_statement, run_init_subclass.
    cbn [GroupedMetadata type_getattr ns_lookup String.eqb Ascii.eqb Bool.eqb].
    unfold GroupedMetadata___init_subclass__.
    cbn [type_getattr]. rewrite Hsome, Hnot.
    reflexivity.
Qed.

Lemma GroupedMetadata_subclass_check_witness :
  ns_lookup [("description"%string, Function "Field.description")] "__iter__"
    = None
  /\ class_statement "Field" GroupedMetadata
       [("description"%string, Function "Field.description")]
     = Raise TypeError
  /\ ns_lookup [("__iter__"%string, Function "Field.__iter__")] "__iter__"
     = Some (Function "Field.__iter__")
  /\ pyfunc_is (Function "Field.__iter__") GroupedMetadata___iter___fn = false
  /\ class_statement "Field" GroupedMetadata
       [("__iter__"%string, Function "Field.__iter__")]
     = Ok (Class "Field" GroupedMetadata
             [("__iter__"%string, Function "Field.__iter__")]).
Proof.
  split; [reflexivity |].
  split.
  { apply (proj1 GroupedMetadata_subclass_check "Field"%string
             [("description"%string, Function "Field.description")]).
    reflexivity. }
  split; [reflexivity |]. split; [reflexivity |].
  apply (proj1 (proj2 GroupedMetadata_subclass_check) "Field"%string
           [("__iter__"%string, Function "Field.__iter__")]
           (Function "Field.__iter__")); reflexivity.
Defined.

(** * Further properties of the narrowing protocol *)

(** ** Shared equations *)

Lemma Len_check_min (self : Len) (other : value) (n : Z) :
  int_value other = Some n ->
  Len___check self other (Some "min"%string) =
  if min_length self =? 0 then Ok tt else Raise ValueError.
Proof.
  intros Hn. destruct (as_int_of_int_value other n Hn) as [_ Hinst].
  unfold Len___check. rewrite Hinst.
  cbn [negb which_ne String.eqb Ascii.eqb Bool.eqb andb orb].
  rewrite orb_false_r. destruct (min_length self =? 0); reflexivity.
Qed.

Lemma Len_ge_eqn (self : Len) (other : value) (n : Z) :
  int_value other = Some n ->
  Len___ge__ self other =
  if min_length self =? 0
  then Ok (mkLen (Z.max 0 n) (max_length self))
  else Raise ValueError.
Proof.
  intros Hn. destruct (as_int_of_int_value other n Hn) as [Has _].
  unfold Len___ge__. rewrite (Len_check_min self other n Hn), Has.
  destruct (Z.eqb_spec (min_length self) 0) as [H0 | H0]; [| reflexivity].
  cbn [bind]. unfold replace_min_length. now rewrite py_max_spec, H0.
Qed.

Lemma Len_gt_eqn (self : Len) (other : value) (n : Z) :
  int_value other = Some n ->
  Len___gt__ self other =
  if min_length self =? 0
  then Ok (mkLen (Z.max 1 n) (max_length self))
  else Raise ValueError.
Proof.
  intros Hn. destruct (as_int_of_int_value other n Hn) as [Has _].
  unfold Len___gt__. rewrite (Len_check_min self other n Hn), Has.
  destruct (Z.eqb_spec (min_length self) 0) as [H0 | H0]; [| reflexivity].
  cbn [bind]. unfold replace_min_length. now rewrite py_max_spec, H0.
Qed.

Lemma Len_ge_not_int (self : Len) (other : value) :
  int_value other = None ->
  Len___ge__ self other = Raise TypeError
  /\ Len___gt__ self other = Raise TypeError.
Proof.
  intros Hn.
  assert (Hinst : isinstance_int other = false)
    by (unfold isinstance_int; now rewrite Hn).
  unfold Len___ge__, Len___gt__.
  rewrite !(Len_check_not_int self other _ Hinst). split; reflexivity.
Qed.

(** ** Len *)

(** X1: [Len.__le__] and [Len.__lt__] raise on every receiver and every
    operand: [TypeError] for a non-integer operand, [ValueError] for an
    integer operand when [max_length] is present, and [TypeError] for an
    integer operand when [max_length] is absent. *)
Theorem Len_upper_narrowing_raises (self : Len) (other : value) :
  Len___le__ self other
    = Raise (if isinstance_int other
             then match max_length self with
                  | Some _ => ValueError
                  | None => TypeError
                  end
             else TypeError)
  /\ Len___lt__ self other
    = Raise (if isinstance_int other
             then match max_length self with
                  | Some _ => ValueError
                  | None => TypeError
                  end
             else TypeError).
Proof.
  unfold Len___le__, Len___lt__.
  destruct (int_value other) as [n |] eqn:Hn.
  - rewrite (Len_check_max self other n Hn).
    destruct (as_int_of_int_value other n Hn) as [Has Hinst].
    rewrite Has, Hinst. destruct (max_length self); split; reflexivity.
  - assert (Hinst : isinstance_int other = false)
      by (unfold isinstance_int; now rewrite Hn).
    rewrite (Len_check_not_int self other _ Hinst), Hinst. split; reflexivity.
Qed.

(** X2: for an integer operand [n], [Len.__ge__] and [Len.__gt__] return
    exactly when the receiver's [min_length] is 0, whatever its
    [max_length]; the result keeps [max_length] and has
    [min_length = max(0, n)] for [>=] and [max(1, n)] for [>]; otherwise
    they raise [ValueError]. *)
Theorem Len_lower_narrowing_spec (self : Len) (other : value) (n : Z) :
  int_value other = Some n ->
  Len___ge__ self other
    = (if min_length self =? 0
       then Ok {| min_length := Z.max 0 n; max_length := max_length self |}
       else Raise ValueError)
  /\ Len___gt__ self other
    = (if min_length self =? 0
       then Ok {| min_length := Z.max 1 n; max_length := max_length self |}
       else Raise ValueError).
Proof.
  intros Hn. split; [apply Len_ge_eqn | apply Len_gt_eqn]; exact Hn.
Qed.

Lemma Len_lower_narrowing_spec_witness :
  int_value (VInt 5) = Some 5
  /\ Len___ge__ (mkLen 0 (Some 3)) (VInt 5) = Ok (mkLen 5 (Some 3))
  /\ Len___gt__ (mkLen 0 (Some 3)) (VInt 5) = Ok (mkLen 5 (Some 3)).
Proof.
  split; [reflexivity |].
  exact (Len_lower_narrowing_spec (mkLen 0 (Some 3)) (VInt 5) 5 eq_refl).
Defined.

(** X3: whenever [Len.__ge__] or [Len.__gt__] returns, the result has the
    receiver's [max_length] and a non-negative [min_length]; so lower-bound
    narrowing keeps the declared non-negativity of the fields. *)
Theorem Len_lower_narrowing_keeps_nonneg (self r : Len) (other : value) :
  Len___ge__ self other = Ok r \/ Len___gt__ self other = Ok r ->
  max_length r = max_length self
  /\ 0 <= min_length r
  /\ (Len_fields_nonneg self -> Len_fields_nonneg r).
Proof.
  intros Hret.
  assert (Hshape : max_length r = max_length self /\ 0 <= min_length r).
  { destruct (int_value other) as [n |] eqn:Hn.
    - rewrite (Len_ge_eqn self other n Hn), (Len_gt_eqn self other n Hn) in Hret.
      destruct (min_length self =? 0);
        destruct Hret as [H | H]; try discriminate H;
        inversion H; subst r; cbn [min_length max_length]; split;
        try reflexivity; lia.
    - destruct (Len_ge_not_int self other Hn) as [Hge Hgt].
      rewrite Hge, Hgt in Hret. destruct Hret as [H | H]; discriminate H. }
  destruct Hshape as [Hmax Hmin]. split; [exact Hmax |]. split; [exact Hmin |].
  intros [_ Hself]. unfold Len_fields_nonneg. rewrite Hmax. split; assumption.
Qed.

Lemma Len_lower_narrowing_keeps_nonneg_witness :
  Len___ge__ (mkLen 0 (Some 3)) (VInt (-7)) = Ok (mkLen 0 (Some 3))
  /\ max_length (mkLen 0 (Some 3)) = max_length (mkLen 0 (Some 3))
  /\ 0 <= min_length (mkLen 0 (Some 3))
  /\ (Len_fields_nonneg (mkLen 0 (Some 3)) ->
      Len_fields_nonneg (mkLen 0 (Some 3))).
Proof.
  split; [reflexivity |].
  apply (Len_lower_narrowing_keeps_nonneg (mkLen 0 (Some 3)) (mkLen 0 (Some 3))
           (VInt (-7))).
  left. reflexivity.
Defined.

(** X4: narrowing a fresh [Len()] against the length builder, for an
    integer [n].  [Len() == n] returns what [len_X == n] returns.
    [Len() >= n] returns [min_length = max(0, n)] and agrees with
    [len_X >= n] exactly when [n >= 0].  [Len() > n] returns
    [min_length = max(1, n)] while [len_X > n] returns [n + 1]: they agree
    only at [n = 0].  [Len() < n] and [Len() <= n] raise [TypeError] where
    the builder returns a [Len]. *)
Theorem Len_fresh_versus_builder (n : Z) :
  Len___eq__ (Len_new None None) (VInt n) = LenMagic___eq__ len_X (VInt n)
  /\ Len___ge__ (Len_new None None) (VInt n) = Ok (mkLen (Z.max 0 n) None)
  /\ (Len___ge__ (Len_new None None) (VInt n) = LenMagic___ge__ len_X (VInt n)
      <-> 0 <= n)
  /\ Len___gt__ (Len_new None None) (VInt n) = Ok (mkLen (Z.max 1 n) None)
  /\ LenMagic___gt__ len_X (VInt n) = Ok (mkLen (n + 1) None)
  /\ (Len___gt__ (Len_new None None) (VInt n) = LenMagic___gt__ len_X (VInt n)
      <-> n = 0)
  /\ Len___lt__ (Len_new None None) (VInt n) = Raise TypeError
  /\ Len___le__ (Len_new None None) (VInt n) = Raise TypeError
  /\ succeeds (LenMagic___lt__ len_X (VInt n)) = true
  /\ succeeds (LenMagic___le__ len_X (VInt n)) = true.
Proof.
  assert (Hgt : Len___gt__ (Len_new None None) (VInt n)
                = Ok (mkLen (Z.max 1 n) None))
    by (rewrite (Len_gt_eqn _ (VInt n) n eq_refl); reflexivity).
  assert (Hge : Len___ge__ (Len_new None None) (VInt n)
                = Ok (mkLen (Z.max 0 n) None))
    by (rewrite (Len_ge_eqn _ (VInt n) n eq_refl); reflexivity).
  assert (Hbgt : LenMagic___gt__ len_X (VInt n) = Ok (mkLen (n + 1) None))
    by reflexivity.
  assert (Hbge : LenMagic___ge__ len_X (VInt n) = Ok (mkLen n None))
    by reflexivity.
  rewrite Hgt, Hge, Hbgt, Hbge.
  repeat split; try (intros H; inversion H; lia);
    intros H; do 2 f_equal; lia.
Qed.

(** X5: on [Len] the order of the two bounds matters.  An upper bound from
    the builder followed by a lower-bound narrowing returns, with
    [min_length = max(0, m)] (resp. [max(1, m)]) and no check that it stays
    below [max_length]; a lower bound from the builder followed by an
    upper-bound narrowing raises [TypeError]. *)
Theorem Len_bound_order_matters (n m : Z) :
  (exists l, LenMagic___le__ len_X (VInt n) = Ok l
             /\ Len___ge__ l (VInt m) = Ok (mkLen (Z.max 0 m) (Some n)))
  /\ (exists l, LenMagic___lt__ len_X (VInt n) = Ok l
                /\ Len___gt__ l (VInt m)
                   = Ok (mkLen (Z.max 1 m) (Some (n - 1))))
  /\ (exists l, LenMagic___ge__ len_X (VInt m) = Ok l
                /\ Len___le__ l (VInt n) = Raise TypeError
                /\ Len___lt__ l (VInt n) = Raise TypeError)
  /\ (exists l, LenMagic___gt__ len_X (VInt m) = Ok l
                /\ Len___le__ l (VInt n) = Raise TypeError
                /\ Len___lt__ l (VInt n) = Raise TypeError).
Proof.
  split; [| split; [| split]].
  - eexists. split; [reflexivity |].
    rewrite (Len_ge_eqn _ (VInt m) m eq_refl). reflexivity.
  - eexists. split; [reflexivity |].
    rewrite (Len_gt_eqn _ (VInt m) m eq_refl). reflexivity.
  - eexists. split; [reflexivity |]. split; reflexivity.
  - eexists. split; [reflexivity |]. split; reflexivity.
Qed.

(** X6: every comparison on the length builder raises [TypeError] when its
    operand is not an [int] ([==] when it is moreover not the builder
    itself). *)
Theorem LenMagic_rejects_non_int (other : value) :
  isinstance_int other = false ->
  LenMagic___lt__ len_X other = Raise TypeError
  /\ LenMagic___le__ len_X other = Raise TypeError
  /\ LenMagic___ge__ len_X other = Raise TypeError
  /\ LenMagic___gt__ len_X other = Raise TypeError
  /\ (other <> VLenMagic -> LenMagic___eq__ len_X other = Raise TypeError).
Proof.
  intros Hinst.
  unfold LenMagic___lt__, LenMagic___le__, LenMagic___ge__, LenMagic___gt__,
    LenMagic___eq__, LenMagic___check.
  rewrite Hinst. cbn [negb bind].
  repeat split.
  intros Hnot. destruct other; try reflexivity. contradiction Hnot. reflexivity.
Qed.

Lemma LenMagic_rejects_non_int_witness :
  isinstance_int (VStr "3") = false
  /\ LenMagic___lt__ len_X (VStr "3") = Raise TypeError
  /\ LenMagic___le__ len_X (VStr "3") = Raise TypeError
  /\ LenMagic___ge__ len_X (VStr "3") = Raise TypeError
  /\ LenMagic___gt__ len_X (VStr "3") = Raise TypeError
  /\ LenMagic___eq__ len_X (VStr "3") = Raise TypeError.
Proof.
  split; [reflexivity |].
  destruct (LenMagic_rejects_non_int (VStr "3") eq_refl)
    as (H1 & H2 & H3 & H4 & H5).
  split; [exact H1 |]. split; [exact H2 |]. split; [exact H3 |].
  split; [exact H4 |].
  apply H5. discriminate.
Defined.

(** X7: a lower bound on a [Len] is final.  [Len.__gt__] only returns a
    [Len] with [min_length >= 1], and on a [Len] whose [min_length] is not 0
    none of the four narrowing operators returns, for any operand, nor does
    [__eq__] for an operand that is not a [Len]. *)
Theorem Len_lower_bound_is_final :
  (forall (self r : Len) (v : value),
      Len___gt__ self v = Ok r -> 1 <= min_length r)
  /\ (forall (r : Len) (other : value),
        min_length r <> 0 ->
        succeeds (Len___lt__ r other) = false
        /\ succeeds (Len___le__ r other) = false
        /\ succeeds (Len___ge__ r other) = false
        /\ succeeds (Len___gt__ r other) = false
        /\ ((forall o : Len, other <> VLen o) ->
            succeeds (Len___eq__ r other) = false)).
Proof.
  split.
  - intros self r v Hret.
    destruct (int_value v) as [n |] eqn:Hn.
    + rewrite (Len_gt_eqn self v n Hn) in Hret.
      destruct (min_length self =? 0); [| discriminate Hret].
      inversion Hret; subst r. cbn [min_length]. lia.
    + destruct (Len_ge_not_int self v Hn) as [_ Hgt].
      rewrite Hgt in Hret. discriminate Hret.
  - intros r other Hmin.
    destruct (Len_upper_narrowing_never_returns r other) as [Hle Hlt].
    apply Z.eqb_neq in Hmin.
    assert (Hlow : succeeds (Len___ge__ r other) = false
                   /\ succeeds (Len___gt__ r other) = false).
    { destruct (int_value other) as [n |] eqn:Hn.
      - rewrite (Len_ge_eqn r other n Hn), (Len_gt_eqn r other n Hn), Hmin.
        split; reflexivity.
      - destruct (Len_ge_not_int r other Hn) as [Hge Hgt].
        rewrite Hge, Hgt. split; reflexivity. }
    destruct Hlow as [Hge Hgt].
    split; [exact Hlt |]. split; [exact Hle |]. split; [exact Hge |].
    split; [exact Hgt |].
    intros Hnot.
    assert (Hbody : Len___eq__ r other
                    = (Len___check r other None ;;
                       k <- as_int other ;;
                       Ok (VLen (Len_new (Some k) (Some k))))).
    { destruct other as [| b | k | s | o | | ty id]; try reflexivity.
      exfalso. apply (Hnot o). reflexivity. }
    rewrite Hbody.
    destruct (int_value other) as [n |] eqn:Hn.
    + rewrite (Len_check_any r other n Hn). unfold Len_unbounded.
      rewrite Hmin. reflexivity.
    + assert (Hinst : isinstance_int other = false)
        by (unfold isinstance_int; now rewrite Hn).
      rewrite (Len_check_not_int r other None Hinst). reflexivity.
Qed.

Lemma Len_lower_bound_is_final_witness :
  Len___gt__ (mkLen 0 None) (VInt (-4)) = Ok (mkLen 1 None)
  /\ 1 <= min_length (mkLen 1 None)
  /\ min_length (mkLen 1 None) <> 0
  /\ succeeds (Len___lt__ (mkLen 1 None) (VInt 9)) = false
  /\ succeeds (Len___le__ (mkLen 1 None) (VInt 9)) = false
  /\ succeeds (Len___ge__ (mkLen 1 None) (VInt 9)) = false
  /\ succeeds (Len___gt__ (mkLen 1 None) (VInt 9)) = false
  /\ succeeds (Len___eq__ (mkLen 1 None) (VInt 9)) = false.
Proof.
  split; [reflexivity |].
  split.
  { apply (proj1 Len_lower_bound_is_final (mkLen 0 None) (mkLen 1 None)
             (VInt (-4))). reflexivity. }
  assert (Hmin : min_length (mkLen 1 None) <> 0) by (cbn; lia).
  split; [exact Hmin |].
  destruct (proj2 Len_lower_bound_is_final (mkLen 1 None) (VInt 9) Hmin)
    as (H1 & H2 & H3 & H4 & H5).
  split; [exact H1 |]. split; [exact H2 |]. split; [exact H3 |].
  split; [exact H4 |].
  apply H5. intros o Ho. discriminate Ho.
Defined.

(** X8: what the length builder's comparisons expand to, for an integer
    [n]: [<] gives [MaxLen(n-1)], [<=] gives [MaxLen(n)], [>=] gives
    [MinLen(n)] and [>] gives [MinLen(n+1)], the [MinLen] being dropped when
    its bound is not positive; [==] gives [MinLen(n)] (if [n > 0]) followed
    by [MaxLen(n)]. *)
Theorem LenMagic_expansion (n : Z) :
  (exists l, LenMagic___lt__ len_X (VInt n) = Ok l
             /\ collect (Len___iter__ l) = [MaxLen (n - 1)])
  /\ (exists l, LenMagic___le__ len_X (VInt n) = Ok l
                /\ collect (Len___iter__ l) = [MaxLen n])
  /\ (exists l, LenMagic___eq__ len_X (VInt n) = Ok (VLen l)
                /\ collect (Len___iter__ l)
                   = if 0 <? n then [MinLen n; MaxLen n] else [MaxLen n])
  /\ (exists l, LenMagic___ge__ len_X (VInt n) = Ok l
                /\ collect (Len___iter__ l)
                   = if 0 <? n then [MinLen n] else [])
  /\ (exists l, LenMagic___gt__ len_X (VInt n) = Ok l
                /\ collect (Len___iter__ l)
                   = if -1 <? n then [MinLen (n + 1)] else []).
Proof.
  repeat split; eexists; (split; [reflexivity |]);
    unfold Len___iter__, collect, Len_new; cbn [min_length max_length];
    rewrite ?Z.gtb_ltb; try reflexivity.
  - destruct (0 <? n); reflexivity.
  - destruct (0 <? n); reflexivity.
  - replace (0 <? n + 1) with (-1 <? n)
      by (destruct (Z.ltb_spec (-1) n), (Z.ltb_spec 0 (n + 1));
          first [reflexivity | lia]).
    destruct (-1 <? n); reflexivity.
Qed.

(** ** Interval *)

Lemma is_not_None_false (v : value) : is_not_None v = false -> v = VNone.
Proof. destruct v; cbn; intros H; try discriminate H; reflexivity. Qed.

Lemma is_not_None_true (v : value) : v <> VNone -> is_not_None v = true.
Proof. destruct v; cbn; intros H; try reflexivity. contradiction H. reflexivity. Qed.

Lemma Interval_lt_eqn (self : Interval) (other : value) :
  Interval___lt__ self other =
  if upper_bound_set self then Raise ValueError else Ok (replace_lt self other).
Proof.
  unfold Interval___lt__. rewrite Interval_check_lo.
  destruct (upper_bound_set self); reflexivity.
Qed.

Lemma Interval_le_eqn (self : Interval) (other : value) :
  Interval___le__ self other =
  if upper_bound_set self then Raise ValueError else Ok (replace_le self other).
Proof.
  unfold Interval___le__. rewrite Interval_check_lo.
  destruct (upper_bound_set self); reflexivity.
Qed.

Lemma Interval_ge_eqn (self : Interval) (other : value) :
  Interval___ge__ self other =
  if lower_bound_set self then Raise ValueError else Ok (replace_ge self other).
Proof.
  unfold Interval___ge__. rewrite Interval_check_hi.
  destruct (lower_bound_set self); reflexivity.
Qed.

Lemma Interval_gt_eqn (self : Interval) (other : value) :
  Interval___gt__ self other =
  if lower_bound_set self then Raise ValueError else Ok (replace_gt self other).
Proof.
  unfold Interval___gt__. rewrite Interval_check_hi.
  destruct (lower_bound_set self); reflexivity.
Qed.

Ltac interval_eqns :=
  rewrite ?Interval_lt_eqn, ?Interval_le_eqn, ?Interval_ge_eqn, ?Interval_gt_eqn.

(** X9: on an [Interval] a lower-bound narrowing and an upper-bound
    narrowing commute: applied in either order they return the same
    [Interval] or both raise [ValueError], for every receiver and all
    operands. *)
Theorem Interval_narrowing_commutes (self : Interval) (a b : value) :
  (r <- Interval___gt__ self a ;; Interval___le__ r b)
    = (r <- Interval___le__ self b ;; Interval___gt__ r a)
  /\ (r <- Interval___gt__ self a ;; Interval___lt__ r b)
    = (r <- Interval___lt__ self b ;; Interval___gt__ r a)
  /\ (r <- Interval___ge__ self a ;; Interval___le__ r b)
    = (r <- Interval___le__ self b ;; Interval___ge__ r a)
  /\ (r <- Interval___ge__ self a ;; Interval___lt__ r b)
    = (r <- Interval___lt__ self b ;; Interval___ge__ r a).
Proof.
  destruct self as [g1 g2 l1 l2].
  repeat split; interval_eqns;
    unfold lower_bound_set, upper_bound_set; cbn [gt ge lt le];
    destruct (is_not_None g1) eqn:E1, (is_not_None g2) eqn:E2,
      (is_not_None l1) eqn:E3, (is_not_None l2) eqn:E4;
    cbn [orb bind]; interval_eqns;
    unfold lower_bound_set, upper_bound_set,
      replace_gt, replace_ge, replace_lt, replace_le; cbn [gt ge lt le];
    rewrite ?E1, ?E2, ?E3, ?E4; reflexivity.
Qed.

(** X10: each direction of an [Interval] can be narrowed once.  After an
    upper-bound narrowing ([<] or [<=]) with an operand other than [None]
    has returned, [<] and [<=] on the result raise [ValueError] for every
    operand; likewise for [>=] and [>] after a lower-bound narrowing. *)
Theorem Interval_second_narrowing_raises (self r : Interval) (a b : value) :
  a <> VNone ->
  (Interval___lt__ self a = Ok r \/ Interval___le__ self a = Ok r ->
   Interval___lt__ r b = Raise ValueError
   /\ Interval___le__ r b = Raise ValueError)
  /\ (Interval___ge__ self a = Ok r \/ Interval___gt__ self a = Ok r ->
      Interval___ge__ r b = Raise ValueError
      /\ Interval___gt__ r b = Raise ValueError).
Proof.
  intros Ha. apply is_not_None_true in Ha.
  split; intros Hret; interval_eqns; revert Hret; interval_eqns.
  - assert (Hset : upper_bound_set r = true -> 
                   (if upper_bound_set r then @Raise Interval ValueError
                    else Ok (replace_lt r b)) = Raise ValueError
                   /\ (if upper_bound_set r then @Raise Interval ValueError
                       else Ok (replace_le r b)) = Raise ValueError)
      by (intros ->; split; reflexivity).
    destruct (upper_bound_set self); intros [H | H]; try discriminate H;
      inversion H; subst r; apply Hset;
      unfold upper_bound_set, replace_lt, replace_le; cbn [lt le];
      rewrite Ha; [reflexivity | apply orb_true_r].
  - assert (Hset : lower_bound_set r = true -> 
                   (if lower_bound_set r then @Raise Interval ValueError
                    else Ok (replace_ge r b)) = Raise ValueError
                   /\ (if lower_bound_set r then @Raise Interval ValueError
                       else Ok (replace_gt r b)) = Raise ValueError)
      by (intros ->; split; reflexivity).
    destruct (lower_bound_set self); intros [H | H]; try discriminate H;
      inversion H; subst r; apply Hset;
      unfold lower_bound_set, replace_ge, replace_gt; cbn [gt ge];
      rewrite Ha; [apply orb_true_r | reflexivity].
Qed.

Lemma Interval_second_narrowing_raises_witness :
  VInt 10 <> VNone
  /\ Interval___lt__ (Interval_new None None None None) (VInt 10)
     = Ok (Interval_new None None (Some (VInt 10)) None)
  /\ Interval___lt__ (Interval_new None None (Some (VInt 10)) None) (VInt 5)
     = Raise ValueError
  /\ Interval___le__ (Interval_new None None (Some (VInt 10)) None) (VInt 5)
     = Raise ValueError.
Proof.
  assert (Hne : VInt 10 <> VNone) by discriminate.
  split; [exact Hne |]. split; [reflexivity |].
  apply (proj1 (Interval_second_narrowing_raises
                  (Interval_new None None None None)
                  (Interval_new None None (Some (VInt 10)) None)
                  (VInt 10) (VInt 5) Hne)).
  left. reflexivity.
Defined.

(** X11: narrowing with the operand [None] sets nothing: when the guard lets
    it through, each of the four operators returns an [Interval] equal to
    the receiver, so the direction can still be narrowed afterwards. *)
Theorem Interval_None_operand_is_noop (self : Interval) :
  Interval___lt__ self VNone
    = (if upper_bound_set self then Raise ValueError else Ok self)
  /\ Interval___le__ self VNone
    = (if upper_bound_set self then Raise ValueError else Ok self)
  /\ Interval___ge__ self VNone
    = (if lower_bound_set self then Raise ValueError else Ok self)
  /\ Interval___gt__ self VNone
    = (if lower_bound_set self then Raise ValueError else Ok self).
Proof.
  interval_eqns. destruct self as [g1 g2 l1 l2].
  unfold lower_bound_set, upper_bound_set,
    replace_gt, replace_ge, replace_lt, replace_le; cbn [gt ge lt le].
  destruct (is_not_None g1) eqn:E1, (is_not_None g2) eqn:E2,
    (is_not_None l1) eqn:E3, (is_not_None l2) eqn:E4; cbn [orb];
    repeat match goal with
           | E : is_not_None ?v = false |- _ =>
               apply is_not_None_false in E; subst v
           end;
    repeat split.
Qed.

Lemma Interval_exclusive_length (i : Interval) :
  Interval_exclusive i = true ->
  (List.length (collect (Interval___iter__ i)) <= 2)%nat.
Proof.
  destruct i as [g1 g2 l1 l2].
  unfold Interval_exclusive, Interval___iter__, collect. cbn [gt ge lt le].
  destruct (is_not_None g1), (is_not_None g2),
    (is_not_None l1), (is_not_None l2); cbn; intros H;
    try discriminate H; lia.
Qed.

Lemma Interval_exclusive_parts (i : Interval) :
  Interval_exclusive i = true <->
  is_not_None (gt i) && is_not_None (ge i) = false
  /\ is_not_None (lt i) && is_not_None (le i) = false.
Proof.
  unfold Interval_exclusive.
  rewrite andb_true_iff, !negb_true_iff. reflexivity.
Qed.

(** X12: every [Interval] obtained from the numeric builder, by one
    comparison on [X] followed by any sequence of narrowings that return,
    has at most one of [gt]/[ge] and at most one of [lt]/[le] set, and so
    expands to at most two single bounds. *)
Theorem from_builder_exclusive (i : Interval) :
  from_builder i ->
  Interval_exclusive i = true
  /\ (List.length (collect (Interval___iter__ i)) <= 2)%nat.
Proof.
  intros Hfb.
  assert (Hex : Interval_exclusive i = true).
  { induction Hfb as
      [v | v | v | v | v
       | i r v _ IH Hret | i r v _ IH Hret
       | i r v _ IH Hret | i r v _ IH Hret];
      try (apply Interval_exclusive_parts; cbn;
           rewrite ?andb_false_r; split; reflexivity);
      revert Hret; interval_eqns;
      apply Interval_exclusive_parts in IH; destruct IH as [IHlo IHhi].
    - destruct (upper_bound_set i) eqn:Hup; intros H; [discriminate H |].
      inversion H; subst r. apply Interval_exclusive_parts.
      unfold upper_bound_set in Hup. apply orb_false_iff in Hup.
      destruct Hup as [_ Hle]. cbn [replace_lt gt ge lt le].
      rewrite Hle, andb_false_r. split; [exact IHlo | reflexivity].
    - destruct (upper_bound_set i) eqn:Hup; intros H; [discriminate H |].
      inversion H; subst r. apply Interval_exclusive_parts.
      unfold upper_bound_set in Hup. apply orb_false_iff in Hup.
      destruct Hup as [Hlt _]. cbn [replace_le gt ge lt le].
      rewrite Hlt. split; [exact IHlo | reflexivity].
    - destruct (lower_bound_set i) eqn:Hlow; intros H; [discriminate H |].
      inversion H; subst r. apply Interval_exclusive_parts.
      unfold lower_bound_set in Hlow. apply orb_false_iff in Hlow.
      destruct Hlow as [Hgt _]. cbn [replace_ge gt ge lt le].
      rewrite Hgt. split; [reflexivity | exact IHhi].
    - destruct (lower_bound_set i) eqn:Hlow; intros H; [discriminate H |].
      inversion H; subst r. apply Interval_exclusive_parts.
      unfold lower_bound_set in Hlow. apply orb_false_iff in Hlow.
      destruct Hlow as [_ Hge]. cbn [replace_gt gt ge lt le].
      rewrite Hge, andb_false_r. split; [reflexivity | exact IHhi]. }
  split; [exact Hex | apply Interval_exclusive_length; exact Hex].
Qed.

Lemma from_builder_exclusive_witness :
  from_builder (Interval_new (Some (VInt 1)) None None (Some (VInt 5)))
  /\ Interval_exclusive
       (Interval_new (Some (VInt 1)) None None (Some (VInt 5))) = true
  /\ (List.length (collect (Interval___iter__
                         (Interval_new (Some (VInt 1)) None None
                            (Some (VInt 5))))) <= 2)%nat.
Proof.
  assert (Hfb : from_builder
                  (Interval_new (Some (VInt 1)) None None (Some (VInt 5)))).
  { apply (fb_narrow_le (Magic___gt__ X (VInt 1)) _ (VInt 5)).
    - apply fb_gt.
    - reflexivity. }
  split; [exact Hfb |].
  exact (from_builder_exclusive _ Hfb).
Defined.

(** X13: expansion of an [Interval] loses nothing: two Intervals with the
    same expansion have the same four fields. *)
Theorem Interval_iter_injective (i j : Interval) :
  collect (Interval___iter__ i) = collect (Interval___iter__ j) -> i = j.
Proof.
  destruct i as [g1 g2 l1 l2], j as [h1 h2 k1 k2].
  unfold Interval___iter__, collect. cbn [gt ge lt le].
  destruct (is_not_None g1) eqn:E1, (is_not_None g2) eqn:E2,
    (is_not_None l1) eqn:E3, (is_not_None l2) eqn:E4,
    (is_not_None h1) eqn:F1, (is_not_None h2) eqn:F2,
    (is_not_None k1) eqn:F3, (is_not_None k2) eqn:F4;
    cbn; intros H; try discriminate H;
    inversion H; subst;
    repeat match goal with
           | E : is_not_None ?v = false |- _ =>
               apply is_not_None_false in E; subst v
           end;
    reflexivity.
Qed.

Lemma Interval_iter_injective_witness :
  collect (Interval___iter__ (Magic___gt__ X (VInt 1)))
    = collect (Interval___iter__ (replace_gt (Interval_new None None None None)
                                    (VInt 1)))
  /\ Magic___gt__ X (VInt 1)
     = replace_gt (Interval_new None None None None) (VInt 1).
Proof.
  split; [reflexivity |].
  apply Interval_iter_injective. reflexivity.
Defined.

(** X14: expansion of a [Len] loses nothing as long as [min_length] is not
    negative: two such [Len] values with the same expansion are equal.  (A
    negative [min_length] expands like 0.) *)
Theorem Len_iter_injective (a b : Len) :
  0 <= min_length a -> 0 <= min_length b ->
  collect (Len___iter__ a) = collect (Len___iter__ b) -> a = b.
Proof.
  destruct a as [mn mx], b as [mn' mx'].
  unfold Len___iter__, collect. cbn [min_length max_length].
  rewrite !Z.gtb_ltb. intros Ha Hb.
  destruct (Z.ltb_spec 0 mn) as [Hp | Hz], (Z.ltb_spec 0 mn') as [Hp' | Hz'],
    mx as [m |], mx' as [m' |];
    cbn; intros Heq; try discriminate Heq;
    inversion Heq; subst; f_equal; lia.
Qed.

Lemma Len_iter_injective_witness :
  0 <= min_length (mkLen 0 (Some 4))
  /\ 0 <= min_length (Len_new None (Some 4))
  /\ collect (Len___iter__ (mkLen 0 (Some 4)))
     = collect (Len___iter__ (Len_new None (Some 4)))
  /\ mkLen 0 (Some 4) = Len_new None (Some 4).
Proof.
  assert (H0 : 0 <= 0) by lia.
  split; [exact H0 |]. split; [exact H0 |]. split; [reflexivity |].
  apply Len_iter_injective; [exact H0 | exact H0 | reflexivity].
Defined.

(** X15: a narrowing that returns adds exactly one single bound to the
    expansion.  For an operand other than [None], [<] and [<=] append
    [Lt]/[Le] of the operand to the receiver's expansion, and [>=] and [>]
    put [Ge]/[Gt] of the operand in front of it. *)
Theorem Interval_narrowing_extends_expansion (self r : Interval) (v : value) :
  v <> VNone ->
  (Interval___lt__ self v = Ok r ->
   collect (Interval___iter__ r) = collect (Interval___iter__ self) ++ [Lt v])
  /\ (Interval___le__ self v = Ok r ->
      collect (Interval___iter__ r)
      = collect (Interval___iter__ self) ++ [Le v])
  /\ (Interval___ge__ self v = Ok r ->
      collect (Interval___iter__ r) = Ge v :: collect (Interval___iter__ self))
  /\ (Interval___gt__ self v = Ok r ->
      collect (Interval___iter__ r) = Gt v :: collect (Interval___iter__ self)).
Proof.
  intros Hv. apply is_not_None_true in Hv.
  destruct self as [g1 g2 l1 l2].
  repeat split; interval_eqns;
    unfold lower_bound_set, upper_bound_set; cbn [gt ge lt le];
    destruct (is_not_None g1) eqn:E1, (is_not_None g2) eqn:E2,
      (is_not_None l1) eqn:E3, (is_not_None l2) eqn:E4;
    cbn [orb]; intros H; try discriminate H;
    inversion H; subst r;
    unfold Interval___iter__, collect,
      replace_gt, replace_ge, replace_lt, replace_le; cbn [gt ge lt le];
    rewrite ?E1, ?E2, ?E3, ?E4, ?Hv; reflexivity.
Qed.

Lemma Interval_narrowing_extends_expansion_witness :
  VInt 5 <> VNone
  /\ Interval___le__ (Magic___gt__ X (VInt 1)) (VInt 5)
     = Ok (Interval_new (Some (VInt 1)) None None (Some (VInt 5)))
  /\ collect (Interval___iter__
                (Interval_new (Some (VInt 1)) None None (Some (VInt 5))))
     = collect (Interval___iter__ (Magic___gt__ X (VInt 1))) ++ [Le (VInt 5)].
Proof.
  assert (Hne : VInt 5 <> VNone) by discriminate.
  split; [exact Hne |]. split; [reflexivity |].
  apply (proj1 (proj2 (Interval_narrowing_extends_expansion
                         (Magic___gt__ X (VInt 1))
                         (Interval_new (Some (VInt 1)) None None
                            (Some (VInt 5)))
                         (VInt 5) Hne))).
  reflexivity.
Defined.

(** X16: the exact-value [Interval] that [X == v] returns for an operand
    other than [None] cannot be narrowed: all four narrowing operators
    raise [ValueError] on it, for every operand. *)
Theorem Magic_eq_is_final (v other : value) :
  v <> VNone ->
  Interval___lt__ (Magic___eq__ X v) other = Raise ValueError
  /\ Interval___le__ (Magic___eq__ X v) other = Raise ValueError
  /\ Interval___ge__ (Magic___eq__ X v) other = Raise ValueError
  /\ Interval___gt__ (Magic___eq__ X v) other = Raise ValueError.
Proof.
  intros Hv. apply is_not_None_true in Hv.
  interval_eqns.
  unfold lower_bound_set, upper_bound_set, Magic___eq__, Interval_new, keyword.
  cbn [gt ge lt le]. rewrite Hv. cbn [orb is_not_None is_None negb].
  repeat split.
Qed.

Lemma Magic_eq_is_final_witness :
  VInt 3 <> VNone
  /\ Interval___lt__ (Magic___eq__ X (VInt 3)) (VInt 9) = Raise ValueError
  /\ Interval___le__ (Magic___eq__ X (VInt 3)) (VInt 9) = Raise ValueError
  /\ Interval___ge__ (Magic___eq__ X (VInt 3)) (VInt 9) = Raise ValueError
  /\ Interval___gt__ (Magic___eq__ X (VInt 3)) (VInt 9) = Raise ValueError.
Proof.
  assert (Hne : VInt 3 <> VNone) by discriminate.
  split; [exact Hne |].
  exact (Magic_eq_is_final (VInt 3) (VInt 9) Hne).
Defined.

(** X17: what the numeric builder's comparisons expand to: a single bound
    of the matching kind holding the operand, [Ge] then [Le] for [==], and
    nothing at all when the operand is [None]. *)
Theorem Magic_expansion (v : value) :
  collect (Interval___iter__ (Magic___lt__ X v))
    = (if is_not_None v then [Lt v] else [])
  /\ collect (Interval___iter__ (Magic___le__ X v))
    = (if is_not_None v then [Le v] else [])
  /\ collect (Interval___iter__ (Magic___eq__ X v))
    = (if is_not_None v then [Ge v; Le v] else [])
  /\ collect (Interval___iter__ (Magic___ge__ X v))
    = (if is_not_None v then [Ge v] else [])
  /\ collect (Interval___iter__ (Magic___gt__ X v))
    = (if is_not_None v then [Gt v] else []).
Proof.
  unfold Interval___iter__, collect, Magic___lt__, Magic___le__, Magic___eq__,
    Magic___ge__, Magic___gt__, Interval_new, keyword.
  cbn [gt ge lt le]. destruct (is_not_None v); repeat split.
Qed.

(** ** GroupedMetadata *)

Lemma class_statement_checked (name : string) (base : pyclass)
    (dict : namespace) (cls : pyclass) :
  type_getattr base "__init_subclass__"
    = Some GroupedMetadata___init_subclass___fn ->
  class_statement name base dict = Ok cls ->
  cls = Class name base dict
  /\ exists f, type_getattr cls "__iter__" = Some f
               /\ pyfunc_is f GroupedMetadata___iter___fn = false.
Proof.
  intros Hhook. unfold class_statement, run_init_subclass.
  rewrite Hhook. unfold GroupedMetadata___init_subclass__.
  destruct (type_getattr (Class name base dict) "__iter__") as [f |] eqn:Hf;
    [| discriminate].
  destruct (pyfunc_is f GroupedMetadata___iter___fn) eqn:His; [discriminate |].
  cbn [bind]. intros H. inversion H; subst cls.
  split; [reflexivity |]. exists f. split; assumption.
Qed.

(** X18: in every class derived from [GroupedMetadata] through class
    statements that return (bodies leaving [__init_subclass__] alone), at
    any depth, [__iter__] resolves to a function other than
    [GroupedMetadata.__iter__]; and a further subclass with an empty body is
    accepted, since it inherits that [__iter__]. *)
Theorem GroupedMetadata_subclass_has_iter (cls : pyclass) :
  GroupedMetadata_subclass cls ->
  (exists f, type_getattr cls "__iter__" = Some f
             /\ pyfunc_is f GroupedMetadata___iter___fn = false)
  /\ (forall name : string,
        class_statement name cls [] = Ok (Class name cls [])).
Proof.
  intros Hsub.
  assert (Hinv : type_getattr cls "__init_subclass__"
                   = Some GroupedMetadata___init_subclass___fn
                 /\ exists f, type_getattr cls "__iter__" = Some f
                      /\ pyfunc_is f GroupedMetadata___iter___fn = false).
  { induction Hsub as [name dict cls Hnohook Hret
                      | name base dict cls _ IH Hnohook Hret].
    - destruct (class_statement_checked name GroupedMetadata dict cls
                  eq_refl Hret) as [-> Hiter].
      split; [| exact Hiter].
      cbn [type_getattr]. rewrite Hnohook. reflexivity.
    - destruct IH as [Hhook _].
      destruct (class_statement_checked name base dict cls Hhook Hret)
        as [-> Hiter].
      split; [| exact Hiter].
      cbn [type_getattr]. rewrite Hnohook. exact Hhook. }
  destruct Hinv as [Hhook (f & Hf & His)].
  split; [exists f; split; assumption |].
  intros name. unfold class_statement, run_init_subclass.
  rewrite Hhook. unfold GroupedMetadata___init_subclass__.
  cbn [type_getattr ns_lookup]. rewrite Hf, His. reflexivity.
Qed.

Lemma GroupedMetadata_subclass_has_iter_witness :
  GroupedMetadata_subclass
    (Class "Field" GroupedMetadata
       [("__iter__"%string, Function "Field.__iter__")])
  /\ (exists f,
         type_getattr
           (Class "Field" GroupedMetadata
              [("__iter__"%string, Function "Field.__iter__")]) "__iter__"
         = Some f
         /\ pyfunc_is f GroupedMetadata___iter___fn = false)
  /\ class_statement "SubField"
       (Class "Field" GroupedMetadata
          [("__iter__"%string, Function "Field.__iter__")]) []
     = Ok (Class "SubField"
             (Class "Field" GroupedMetadata
                [("__iter__"%string, Function "Field.__iter__")]) []).
Proof.
  assert (Hsub : GroupedMetadata_subclass
                   (Class "Field" GroupedMetadata
                      [("__iter__"%string, Function "Field.__iter__")])).
  { apply (gs_direct "Field"
             [("__iter__"%string, Function "Field.__iter__")]);
      reflexivity. }
  split; [exact Hsub |].
  destruct (GroupedMetadata_subclass_has_iter _ Hsub) as [Hiter Hempty].
  split; [exact Hiter | exact (Hempty "SubField"%string)].
Defined.
